(** * EasyTrader broker gateway: a shallow embedding of
      [src/trading/broker_service/easytrader_service.py]

    The service keeps one brokerage session in three module globals
    ([trader], [broker_type], [trader_connected]) and exposes it through
    FastAPI handlers.  The handlers are embedded as computations in a small
    state-and-exception monad over a [World] that holds the globals together
    with what the handlers can observe or affect outside them: the journal
    of calls made on the [easytrader] collaborator, the records written to
    the logger and the wall clock.  Requests are served one at a time: no
    handler awaits, so each runs to its end before the next starts. *)

From Stdlib Require Import ZArith List String Ascii Bool Lia SpecFloat
  DecimalString.
Import ListNotations.
Local Open Scope string_scope.
Local Set Warnings "-register-all".

(** ** Python values *)

(** The Python values that cross the service: decoded JSON bodies, what
    the collaborator returns and the [data] field of the response model.  A
    [dict] is kept as an association list in insertion order, a [set] as
    the list of its elements, [bytes] as the string of its bytes.  Whatever
    else the collaborator may return is an object of some class [cls], of
    which the service can only ever ask the length: [size] is [None] when
    the class has no [__len__], the message of the exception when
    [__len__] raises, and the length otherwise. *)
Inductive PyVal : Type :=
| VNone
| VBool (b : bool)
| VInt (z : Z)
| VFloat (f : spec_float)
| VStr (s : string)
| VList (l : list PyVal)
| VDict (kv : list (string * PyVal))
| VTuple (l : list PyVal)
| VSet (l : list PyVal)
| VBytes (b : string)
| VObject (cls : string) (size : option (string + nat)).

(** [data is not None]. *)
Definition is_present (v : PyVal) : bool :=
  match v with VNone => false | _ => true end.

(** Number of code points of a UTF-8 encoded string: bytes of the form
    [10xxxxxx] continue a code point and are not counted. *)
Fixpoint code_points (s : string) : nat :=
  match s with
  | EmptyString => 0
  | String c r =>
      let n := nat_of_ascii c in
      ((if (128 <=? n) && (n <? 192) then 0 else 1) + code_points r)%nat
  end.

(** The name Python prints for the type of a value. *)
Definition type_name (v : PyVal) : string :=
  match v with
  | VNone => "NoneType"
  | VBool _ => "bool"
  | VInt _ => "int"
  | VFloat _ => "float"
  | VStr _ => "str"
  | VList _ => "list"
  | VDict _ => "dict"
  | VTuple _ => "tuple"
  | VSet _ => "set"
  | VBytes _ => "bytes"
  | VObject cls _ => cls
  end.

(** [len(v)]: the size of a sized value, or the message of the exception
    raised instead, which is a [TypeError] for a value of a class without
    [__len__]. *)
Definition py_len (v : PyVal) : string + Z :=
  match v with
  | VStr s => inr (Z.of_nat (code_points s))
  | VList l => inr (Z.of_nat (List.length l))
  | VDict kv => inr (Z.of_nat (List.length kv))
  | VTuple l => inr (Z.of_nat (List.length l))
  | VSet l => inr (Z.of_nat (List.length l))
  | VBytes b => inr (Z.of_nat (String.length b))
  | VObject _ (Some (inr n)) => inr (Z.of_nat n)
  | VObject _ (Some (inl msg)) => inl msg
  | _ => inl ("object of type '" ++ type_name v ++ "' has no len()")
  end.

(** A float that JSON can carry: neither an infinity nor a NaN. *)
Definition finite (f : spec_float) : bool :=
  match f with
  | S754_zero _ | S754_finite _ _ _ => true
  | S754_infinity _ | S754_nan => false
  end.

(** No float inside [v] is an infinity or a NaN. *)
Fixpoint finite_floats (v : PyVal) : bool :=
  match v with
  | VFloat f => finite f
  | VList l | VTuple l | VSet l => forallb finite_floats l
  | VDict kv => forallb (fun e => finite_floats (snd e)) kv
  | _ => true
  end.

(** ** The collaborator *)

(** A trader object made by [easytrader.use] is opaque to the service; only
    its identity matters.  Objects are numbered in order of creation. *)
Definition Handle := nat.

(** Every operation the service invokes on the collaborator. *)
Inductive Call : Type :=
| Use (broker : string)
| Prepare (h : Handle) (exe_path : option string)
| Login (h : Handle) (credentials : option (option string * option string))
| Exit (h : Handle)
| Buy (h : Handle) (symbol : string) (price : spec_float) (amount : Z)
| Sell (h : Handle) (symbol : string) (price : spec_float) (amount : Z)
| CancelEntrust (h : Handle) (order_id : string)
| Position (h : Handle)
| Balance (h : Handle)
| TodayEntrusts (h : Handle)
| TodayTrades (h : Handle).

(** What a collaborator call does: it blocks for [elapsed] clock ticks and
    then either returns a value or raises an exception [e] with
    [str(e) = msg]. *)
Inductive Outcome : Type :=
| Returns (v : PyVal) (elapsed : nat)
| Raises (msg : string) (elapsed : nat).

(** The collaborator is unconstrained: its answer to a call may depend on
    everything it has been asked before. *)
Definition Collaborator := list Call -> Call -> Outcome.

(** ** Process state *)

Inductive Level : Type := INFO | WARNING | ERROR.

Record World : Type := mkWorld {
  trader : option Handle;          (* None is Python's None *)
  broker_type : string;
  trader_connected : bool;
  journal : list Call;             (* collaborator calls, oldest first *)
  records : list (Level * string); (* logger output, oldest first *)
  clock : nat;
  created : nat                    (* trader objects created so far *)
}.

(** The module globals as they stand when the module has been imported. *)
Definition initial_world : World :=
  mkWorld None "yh" false [] [] 0 0.

Definition set_trader (t : option Handle) (w : World) : World :=
  mkWorld t (broker_type w) (trader_connected w) (journal w) (records w)
          (clock w) (created w).

Definition set_broker_type (b : string) (w : World) : World :=
  mkWorld (trader w) b (trader_connected w) (journal w) (records w)
          (clock w) (created w).

Definition set_trader_connected (c : bool) (w : World) : World :=
  mkWorld (trader w) (broker_type w) c (journal w) (records w)
          (clock w) (created w).

Definition emit (l : Level) (msg : string) (w : World) : World :=
  mkWorld (trader w) (broker_type w) (trader_connected w) (journal w)
          (records w ++ [(l, msg)]) (clock w) (created w).

(** The footprint of one collaborator call on the world. *)
Definition called (c : Call) (elapsed : nat) (w : World) : World :=
  mkWorld (trader w) (broker_type w) (trader_connected w) (journal w ++ [c])
          (records w) (clock w + elapsed) (created w).

Definition allocate (w : World) : World :=
  mkWorld (trader w) (broker_type w) (trader_connected w) (journal w)
          (records w) (clock w) (S (created w)).

(** ** A state-and-exception monad *)

(** A computation runs on a world, and ends with a value or with a raised
    exception of type [E]. *)
Definition M (E A : Type) : Type := World -> (E + A) * World.

Definition ret {E A} (a : A) : M E A := fun w => (inr a, w).

Definition bind {E A B} (m : M E A) (k : A -> M E B) : M E B :=
  fun w => match m w with
           | (inr a, w') => k a w'
           | (inl e, w') => (inl e, w')
           end.

Definition raise {E A} (e : E) : M E A := fun w => (inl e, w).

(** [try: body / except Exception as e: handler e]. *)
Definition try_except {E E' A} (body : M E A) (handler : E -> M E' A)
  : M E' A :=
  fun w => match body w with
           | (inr a, w') => (inr a, w')
           | (inl e, w') => handler e w'
           end.

Definition gets {E A} (f : World -> A) : M E A := fun w => (inr (f w), w).

Definition modify {E} (f : World -> World) : M E unit :=
  fun w => (inr tt, f w).

Declare Scope py_scope.
Delimit Scope py_scope with py.
Notation "x <- m ;; k" := (bind m (fun x => k))
  (at level 61, m at next level, right associativity) : py_scope.
Notation "m ;; k" := (bind m (fun _ => k))
  (at level 61, right associativity) : py_scope.
Local Open Scope py_scope.

(** An exception raised inside a [try] body; [str e] is its message. *)
Inductive PyError : Type := PyErr (str : string).

Definition str_of (e : PyError) : string := let '(PyErr s) := e in s.

(** [fastapi.HTTPException]. *)
Inductive HTTPException : Type :=
| HTTPExc (status_code : Z) (detail : string).

Definition HTTP_500_INTERNAL_SERVER_ERROR : Z := 500.
Definition HTTP_503_SERVICE_UNAVAILABLE : Z := 503.

Definition logger_info {E} (msg : string) : M E unit := modify (emit INFO msg).
Definition logger_warning {E} (msg : string) : M E unit :=
  modify (emit WARNING msg).
Definition logger_error {E} (msg : string) : M E unit :=
  modify (emit ERROR msg).

(** ** Request and response models *)

Module LoginRequest.
Record t : Type := mk {
  broker_type : string;
  username : option string;
  password : option string;
  exe_path : option string
}.
End LoginRequest.

Module BuyRequest.
Record t : Type := mk { symbol : string; price : spec_float; amount : Z }.
End BuyRequest.

Module SellRequest.
Record t : Type := mk { symbol : string; price : spec_float; amount : Z }.
End SellRequest.

Module CancelRequest.
Record t : Type := mk { order_id : string }.
End CancelRequest.

Record ResponseModel : Type := mkResponse {
  success : bool;
  message : string;
  data : PyVal;            (* Optional[Any], VNone when absent *)
  timestamp : string
}.

(** *** Schema validation

    A request body reaches a handler only as an instance of its model.  A
    body is taken after JSON decoding, each field either missing or holding a
    value of the declared type; [Field(...)] makes a field required and
    [gt=0] keeps it only when [value > 0]. *)

Definition float_zero : spec_float := S754_zero false.

(** [gt=0] on a [float] field. *)
Definition float_gt0 (x : spec_float) : bool := SFltb float_zero x.

(** [gt=0] on an [int] field. *)
Definition int_gt0 (n : Z) : bool := (0 <? n)%Z.

Record OrderBody : Type := mkOrderBody {
  body_symbol : option string;
  body_price : option spec_float;
  body_amount : option Z
}.

Record CancelBody : Type := mkCancelBody {
  body_order_id : option string
}.

Definition validate_BuyRequest (b : OrderBody) : option BuyRequest.t :=
  match body_symbol b, body_price b, body_amount b with
  | Some s, Some p, Some a =>
      if float_gt0 p && int_gt0 a then Some (BuyRequest.mk s p a) else None
  | _, _, _ => None
  end.

Definition validate_SellRequest (b : OrderBody) : option SellRequest.t :=
  match body_symbol b, body_price b, body_amount b with
  | Some s, Some p, Some a =>
      if float_gt0 p && int_gt0 a then Some (SellRequest.mk s p a) else None
  | _, _, _ => None
  end.

Definition validate_CancelRequest (b : CancelBody) : option CancelRequest.t :=
  match body_order_id b with
  | Some o => Some (CancelRequest.mk o)
  | None => None
  end.

(** *** The report of a failed validation

    A body that fails its schema is answered with a report of every error
    found, and each error echoes its input: the value of the field for a
    value that is not above zero, the whole body for a field that is
    missing. *)

Definition present {A} (key : string) (wrap : A -> PyVal) (field : option A)
  : list (string * PyVal) :=
  match field with
  | Some x => [(key, wrap x)]
  | None => []
  end.

(** The body as decoded from JSON. *)
Definition order_body_value (b : OrderBody) : PyVal :=
  VDict (present "symbol" VStr (body_symbol b)
         ++ present "price" VFloat (body_price b)
         ++ present "amount" VInt (body_amount b)).

Definition cancel_body_value (b : CancelBody) : PyVal :=
  VDict (present "order_id" VStr (body_order_id b)).

(** The inputs echoed by the errors of an order body, in the order of the
    fields. *)
Definition order_errors (b : OrderBody) : list PyVal :=
  (match body_symbol b with
   | Some _ => []
   | None => [order_body_value b]
   end)
  ++ (match body_price b with
      | Some p => if float_gt0 p then [] else [VFloat p]
      | None => [order_body_value b]
      end)
  ++ (match body_amount b with
      | Some a => if int_gt0 a then [] else [VInt a]
      | None => [order_body_value b]
      end).

Definition cancel_errors (b : CancelBody) : list PyVal :=
  match body_order_id b with
  | Some _ => []
  | None => [cancel_body_value b]
  end.

(** What the HTTP client receives: the JSON of a response model, the JSON
    [{"detail": ...}] of an [HTTPException], the JSON report of a failed
    validation, or the bare text "Internal Server Error" the server sends
    when an exception escapes. *)
Inductive Reply : Type :=
| Json (status_code : Z) (body : ResponseModel)
| Failure (status_code : Z) (detail : string)
| ValidationError (status_code : Z)
| ServerError (status_code : Z).

Definition status_of (r : Reply) : Z :=
  match r with
  | Json s _ => s
  | Failure s _ => s
  | ValidationError s => s
  | ServerError s => s
  end.

Definition HTTP_200_OK : Z := 200.
Definition HTTP_422_UNPROCESSABLE_ENTITY : Z := 422.

(** A handler that returns answers 200 with the model as body; a raised
    [HTTPException] answers with its own status and detail. *)
Definition serve (handler : M HTTPException ResponseModel)
  : World -> Reply * World :=
  fun w => match handler w with
           | (inr r, w') => (Json HTTP_200_OK r, w')
           | (inl (HTTPExc s d), w') => (Failure s d, w')
           end.

(** The reply to a body that failed validation.  The report is encoded
    as strict JSON, which has no infinities and no NaN: when an echoed
    input holds one the encoding raises, nothing catches it, and the
    client is sent a 500 instead of the 422. *)
Definition validation_reply (echoed : list PyVal) : Reply :=
  if forallb finite_floats echoed
  then ValidationError HTTP_422_UNPROCESSABLE_ENTITY
  else ServerError HTTP_500_INTERNAL_SERVER_ERROR.

(** A body that fails validation is answered before the handler runs. *)
Definition serve_validated {B R} (validate : B -> option R)
    (errors : B -> list PyVal)
    (handler : R -> M HTTPException ResponseModel) (b : B)
  : World -> Reply * World :=
  match validate b with
  | Some req => serve (handler req)
  | None => fun w => (validation_reply (errors b), w)
  end.

(** Truth value of the global [trader]: an object is true, [None] is not. *)
Definition truthy (t : option Handle) : bool :=
  match t with Some _ => true | None => false end.

(** Truth value of a [str]: every string but the empty one is true. *)
Definition nonempty (s : string) : bool := negb (s =? "")%string.

(** [a or b] on an optional string and a string. *)
Definition str_or (a : option string) (b : string) : string :=
  match a with
  | Some s => if nonempty s then s else b
  | None => b
  end.

(** The guard [trader and trader_connected] every trading and query handler
    tests. *)
Definition connected (w : World) : bool :=
  truthy (trader w) && trader_connected w.

Record LoginBody : Type := mkLoginBody {
  body_broker_type : option string;
  body_username : option string;
  body_password : option string;
  body_exe_path : option string
}.

Definition validate_LoginRequest (b : LoginBody) : option LoginRequest.t :=
  match body_broker_type b with
  | Some k =>
      Some (LoginRequest.mk k (body_username b) (body_password b)
                            (body_exe_path b))
  | None => None
  end.

Definition login_body_value (b : LoginBody) : PyVal :=
  VDict (present "broker_type" VStr (body_broker_type b)
         ++ present "username" VStr (body_username b)
         ++ present "password" VStr (body_password b)
         ++ present "exe_path" VStr (body_exe_path b)).

Definition login_errors (b : LoginBody) : list PyVal :=
  match body_broker_type b with
  | Some _ => []
  | None => [login_body_value b]
  end.

(** A request to the service: the route together with its decoded body. *)
Inductive Request : Type :=
| GET_health
| POST_login (b : LoginBody)
| GET_logout
| POST_buy (b : OrderBody)
| POST_sell (b : OrderBody)
| POST_cancel (b : CancelBody)
| GET_portfolio
| GET_balance
| GET_orders
| GET_today_trades.

(** The trading and query operations, each with its validated request. *)
Inductive Operation : Type :=
| OpBuy (req : BuyRequest.t)
| OpSell (req : SellRequest.t)
| OpCancel (req : CancelRequest.t)
| OpPortfolio
| OpBalance
| OpOrders
| OpTodayTrades.

(** The one collaborator call an operation makes on the handle [h]. *)
Definition call_of (op : Operation) (h : Handle) : Call :=
  match op with
  | OpBuy (BuyRequest.mk s p a) => Buy h s p a
  | OpSell (SellRequest.mk s p a) => Sell h s p a
  | OpCancel (CancelRequest.mk o) => CancelEntrust h o
  | OpPortfolio => Position h
  | OpBalance => Balance h
  | OpOrders => TodayEntrusts h
  | OpTodayTrades => TodayTrades h
  end.

(** The text each handler puts in front of [str(e)] when it reports a
    failure. *)
Definition failure_prefix (op : Operation) : string :=
  match op with
  | OpBuy _ => "买入失败: "
  | OpSell _ => "卖出失败: "
  | OpCancel _ => "撤销委托失败: "
  | OpPortfolio => "获取持仓失败: "
  | OpBalance => "获取余额失败: "
  | OpOrders => "获取当日委托失败: "
  | OpTodayTrades => "获取当日成交失败: "
  end.

(** ** The handlers *)

(** The [easytrader] library, the interpreter's [str], the rendering of the
    clock by [datetime.now().isoformat()] and the process environment are
    outside the service and left arbitrary. *)
Record Env : Type := mkEnv {
  collaborator : Collaborator;
  py_str : PyVal -> string;
  isoformat : nat -> string;
  environ : string -> option string
}.

Section Service.

Variable env : Env.

Definition os_getenv (key default : string) : string :=
  match environ env key with Some v => v | None => default end.

(** One call on the collaborator: it is entered in the journal and the
    clock moves on, whether the call returns or raises. *)
Definition invoke {E} (wrap : string -> E) (c : Call) : M E PyVal :=
  fun w => match collaborator env (journal w) c with
           | Returns v dt => (inr v, called c dt w)
           | Raises msg dt => (inl (wrap msg), called c dt w)
           end.

(** [easytrader.use(broker)] builds a new trader object. *)
Definition easytrader_use (broker : string) : M PyError Handle :=
  _ <- invoke PyErr (Use broker) ;;
  h <- gets created ;;
  modify allocate ;;
  ret h.

(** [trader.attr(...)] on the global [trader]. *)
Definition on_trader (attr : string) (c : Handle -> Call)
  : M PyError PyVal :=
  t <- gets trader ;;
  match t with
  | Some h => invoke PyErr (c h)
  | None =>
      raise (PyErr ("'NoneType' object has no attribute '" ++ attr ++ "'"))
  end.

Definition len (v : PyVal) : M PyError Z :=
  match py_len v with
  | inr n => ret n
  | inl msg => raise (PyErr msg)
  end.

Definition create_response {E} (success : bool) (message : string)
    (data : PyVal) : M E ResponseModel :=
  now <- gets clock ;;
  ret (mkResponse success message data (isoformat env now)).

Definition health_check : M HTTPException ResponseModel :=
  c <- gets trader_connected ;;
  b <- gets broker_type ;;
  create_response true "服务正常"
    (VDict [("connected", VBool c); ("broker_type", VStr b)]).

(** [exe_path = req.exe_path or os.getenv("BROKER_EXE_PATH", "")] followed by
    [trader.prepare(exe_path)] or [trader.prepare()]: the same lines open
    both branches of [login]. *)
Definition prepare_client (req : LoginRequest.t) : M PyError PyVal :=
  let exe_path :=
    str_or (LoginRequest.exe_path req) (os_getenv "BROKER_EXE_PATH" "") in
  if nonempty exe_path
  then on_trader "prepare" (fun h => Prepare h (Some exe_path))
  else on_trader "prepare" (fun h => Prepare h None).

Definition login (req : LoginRequest.t) : M HTTPException ResponseModel :=
  let kind := LoginRequest.broker_type req in
  try_except
    (h <- easytrader_use kind ;;
     modify (set_trader (Some h)) ;;
     modify (set_broker_type kind) ;;
     (if (kind =? "yh")%string
      then
        prepare_client req ;;
        on_trader "login" (fun h => Login h None)
      else
        prepare_client req ;;
        on_trader "login"
          (fun h => Login h (Some (LoginRequest.username req,
                                   LoginRequest.password req)))) ;;
     modify (set_trader_connected true) ;;
     logger_info ("成功登录券商: " ++ kind) ;;
     create_response true ("成功登录券商: " ++ kind)
       (VDict [("broker_type", VStr kind)]))
    (fun e =>
       modify (set_trader_connected false) ;;
       logger_error ("登录失败: " ++ str_of e) ;;
       raise (HTTPExc HTTP_500_INTERNAL_SERVER_ERROR
                      ("登录失败: " ++ str_of e))).

Definition logout : M HTTPException ResponseModel :=
  t <- gets trader ;;
  if negb (truthy t) then create_response false "未登录" VNone
  else
    try_except
      (on_trader "exit" Exit ;;
       modify (set_trader_connected false) ;;
       modify (set_trader None) ;;
       create_response true "已退出登录" VNone)
      (fun e =>
         logger_error ("退出登录失败: " ++ str_of e) ;;
         raise (HTTPExc HTTP_500_INTERNAL_SERVER_ERROR
                        ("退出登录失败: " ++ str_of e))).

Definition buy (req : BuyRequest.t) : M HTTPException ResponseModel :=
  let '(BuyRequest.mk symbol price amount) := req in
  t <- gets trader ;;
  c <- gets trader_connected ;;
  if negb (truthy t) || negb c
  then raise (HTTPExc HTTP_503_SERVICE_UNAVAILABLE "未登录券商")
  else
    try_except
      (result <- on_trader "buy" (fun h => Buy h symbol price amount) ;;
       logger_info ("买入请求: " ++ symbol ++ ", 价格: "
                    ++ py_str env (VFloat price) ++ ", 数量: "
                    ++ py_str env (VInt amount) ++ ", 结果: "
                    ++ py_str env result) ;;
       create_response true "买入请求已提交"
         (VDict [("symbol", VStr symbol); ("price", VFloat price);
                 ("amount", VInt amount); ("order_id", result)]))
      (fun e =>
         logger_error ("买入失败: " ++ str_of e) ;;
         raise (HTTPExc HTTP_500_INTERNAL_SERVER_ERROR
                        ("买入失败: " ++ str_of e))).

Definition sell (req : SellRequest.t) : M HTTPException ResponseModel :=
  let '(SellRequest.mk symbol price amount) := req in
  t <- gets trader ;;
  c <- gets trader_connected ;;
  if negb (truthy t) || negb c
  then raise (HTTPExc HTTP_503_SERVICE_UNAVAILABLE "未登录券商")
  else
    try_except
      (result <- on_trader "sell" (fun h => Sell h symbol price amount) ;;
       logger_info ("卖出请求: " ++ symbol ++ ", 价格: "
                    ++ py_str env (VFloat price) ++ ", 数量: "
                    ++ py_str env (VInt amount) ++ ", 结果: "
                    ++ py_str env result) ;;
       create_response true "卖出请求已提交"
         (VDict [("symbol", VStr symbol); ("price", VFloat price);
                 ("amount", VInt amount); ("order_id", result)]))
      (fun e =>
         logger_error ("卖出失败: " ++ str_of e) ;;
         raise (HTTPExc HTTP_500_INTERNAL_SERVER_ERROR
                        ("卖出失败: " ++ str_of e))).

Definition cancel (req : CancelRequest.t) : M HTTPException ResponseModel :=
  let order_id := CancelRequest.order_id req in
  t <- gets trader ;;
  c <- gets trader_connected ;;
  if negb (truthy t) || negb c
  then raise (HTTPExc HTTP_503_SERVICE_UNAVAILABLE "未登录券商")
  else
    try_except
      (result <- on_trader "cancel_entrust"
                   (fun h => CancelEntrust h order_id) ;;
       logger_info ("撤销委托: " ++ order_id ++ ", 结果: "
                    ++ py_str env result) ;;
       create_response true "撤销委托请求已提交"
         (VDict [("order_id", VStr order_id); ("result", result)]))
      (fun e =>
         logger_error ("撤销委托失败: " ++ str_of e) ;;
         raise (HTTPExc HTTP_500_INTERNAL_SERVER_ERROR
                        ("撤销委托失败: " ++ str_of e))).

Definition get_portfolio : M HTTPException ResponseModel :=
  t <- gets trader ;;
  c <- gets trader_connected ;;
  if negb (truthy t) || negb c
  then raise (HTTPExc HTTP_503_SERVICE_UNAVAILABLE "未登录券商")
  else
    try_except
      (positions <- on_trader "position" Position ;;
       n <- len positions ;;
       logger_info ("获取持仓: " ++ py_str env (VInt n) ++ " 只股票") ;;
       create_response true "获取持仓成功" positions)
      (fun e =>
         logger_error ("获取持仓失败: " ++ str_of e) ;;
         raise (HTTPExc HTTP_500_INTERNAL_SERVER_ERROR
                        ("获取持仓失败: " ++ str_of e))).

Definition get_balance : M HTTPException ResponseModel :=
  t <- gets trader ;;
  c <- gets trader_connected ;;
  if negb (truthy t) || negb c
  then raise (HTTPExc HTTP_503_SERVICE_UNAVAILABLE "未登录券商")
  else
    try_except
      (balance <- on_trader "balance" Balance ;;
       logger_info ("获取余额: " ++ py_str env balance) ;;
       create_response true "获取余额成功" balance)
      (fun e =>
         logger_error ("获取余额失败: " ++ str_of e) ;;
         raise (HTTPExc HTTP_500_INTERNAL_SERVER_ERROR
                        ("获取余额失败: " ++ str_of e))).

Definition get_orders : M HTTPException ResponseModel :=
  t <- gets trader ;;
  c <- gets trader_connected ;;
  if negb (truthy t) || negb c
  then raise (HTTPExc HTTP_503_SERVICE_UNAVAILABLE "未登录券商")
  else
    try_except
      (orders <- on_trader "today_entrusts" TodayEntrusts ;;
       n <- len orders ;;
       logger_info ("获取当日委托: " ++ py_str env (VInt n) ++ " 条") ;;
       create_response true "获取当日委托成功" orders)
      (fun e =>
         logger_error ("获取当日委托失败: " ++ str_of e) ;;
         raise (HTTPExc HTTP_500_INTERNAL_SERVER_ERROR
                        ("获取当日委托失败: " ++ str_of e))).

Definition get_today_trades : M HTTPException ResponseModel :=
  t <- gets trader ;;
  c <- gets trader_connected ;;
  if negb (truthy t) || negb c
  then raise (HTTPExc HTTP_503_SERVICE_UNAVAILABLE "未登录券商")
  else
    try_except
      (trades <- on_trader "today_trades" TodayTrades ;;
       n <- len trades ;;
       logger_info ("获取当日成交: " ++ py_str env (VInt n) ++ " 条") ;;
       create_response true "获取当日成交成功" trades)
      (fun e =>
         logger_error ("获取当日成交失败: " ++ str_of e) ;;
         raise (HTTPExc HTTP_500_INTERNAL_SERVER_ERROR
                        ("获取当日成交失败: " ++ str_of e))).

(** *** Start-up and shutdown

    [lifespan] up to its [yield], and after it.  Neither part raises; the
    automatic login assigns [trader] and [trader_connected] but not
    [broker_type], which is not among its globals. *)
Definition lifespan_startup {E} : M E unit :=
  logger_info "EasyTrader服务启动中..." ;;
  let broker_type_env := os_getenv "BROKER_TYPE" "yh" in
  let username := os_getenv "BROKER_USERNAME" "" in
  let password := os_getenv "BROKER_PASSWORD" "" in
  if nonempty username && nonempty password
  then
    try_except
      (h <- easytrader_use broker_type_env ;;
       modify (set_trader (Some h)) ;;
       (if (broker_type_env =? "yh")%string
        then
          on_trader "prepare"
            (fun h => Prepare h (Some (os_getenv "BROKER_EXE_PATH" ""))) ;;
          on_trader "login" (fun h => Login h None)
        else
          on_trader "prepare"
            (fun h => Prepare h (Some (os_getenv "BROKER_EXE_PATH" ""))) ;;
          on_trader "login"
            (fun h => Login h (Some (Some username, Some password)))) ;;
       modify (set_trader_connected true) ;;
       logger_info ("成功登录券商: " ++ broker_type_env))
      (fun e =>
         logger_warning ("自动登录失败: " ++ str_of e
                         ++ ", 请手动调用login接口") ;;
         modify (set_trader_connected false))
  else logger_info "未配置自动登录，请调用login接口".

Definition lifespan_shutdown {E} : M E unit :=
  logger_info "EasyTrader服务关闭中..." ;;
  t <- gets trader ;;
  if truthy t
  then
    try_except
      (on_trader "exit" Exit ;; ret tt)
      (fun e => logger_warning ("退出券商客户端失败: " ++ str_of e))
  else ret tt.

(** *** The routes *)

Definition app (r : Request) : World -> Reply * World :=
  match r with
  | GET_health => serve health_check
  | POST_login b => serve_validated validate_LoginRequest login_errors login b
  | GET_logout => serve logout
  | POST_buy b => serve_validated validate_BuyRequest order_errors buy b
  | POST_sell b => serve_validated validate_SellRequest order_errors sell b
  | POST_cancel b => serve_validated validate_CancelRequest cancel_errors cancel b
  | GET_portfolio => serve get_portfolio
  | GET_balance => serve get_balance
  | GET_orders => serve get_orders
  | GET_today_trades => serve get_today_trades
  end.

(** Requests served one after the other. *)
Fixpoint run (rs : list Request) (w : World) : list Reply * World :=
  match rs with
  | [] => ([], w)
  | r :: rs' =>
      let '(a, w1) := app r w in
      let '(l, w2) := run rs' w1 in
      (a :: l, w2)
  end.

Definition handler (op : Operation) : M HTTPException ResponseModel :=
  match op with
  | OpBuy req => buy req
  | OpSell req => sell req
  | OpCancel req => cancel req
  | OpPortfolio => get_portfolio
  | OpBalance => get_balance
  | OpOrders => get_orders
  | OpTodayTrades => get_today_trades
  end.

End Service.

(** ** Concrete environments *)

Definition decimal (n : nat) : string :=
  NilZero.string_of_uint (Nat.to_uint n).

(** A collaborator that answers its [n]-th call with the [n]-th entry of a
    script, and returns [None] at once when the script is used up. *)
Definition scripted (answers : list Outcome) : Collaborator :=
  fun history _ => nth (List.length history) answers (Returns VNone 0).

Definition sample_str (v : PyVal) : string :=
  match v with
  | VStr s => s
  | VInt (Z.pos p) => decimal (Pos.to_nat p)
  | VInt Z0 => "0"
  | VNone => "None"
  | _ => "<" ++ type_name v ++ ">"
  end.

Definition sample_env (answers : list Outcome) : Env :=
  mkEnv (scripted answers) sample_str (fun n => "T+" ++ decimal n)
        (fun _ => None).

(** The arguments [login] passes to [trader.prepare] and [trader.login]
    for a request, named so that journals can be written down. *)
Definition prepare_argument (e : Env) (req : LoginRequest.t) : option string :=
  let exe_path :=
    str_or (LoginRequest.exe_path req) (os_getenv e "BROKER_EXE_PATH" "") in
  if nonempty exe_path then Some exe_path else None.

Definition login_arguments (req : LoginRequest.t)
  : option (option string * option string) :=
  if (LoginRequest.broker_type req =? "yh")%string then None
  else Some (LoginRequest.username req, LoginRequest.password req).

(** A successful login with default settings, from the freshly imported
    module: the state most scenarios below start from. *)
Definition yh_login : LoginRequest.t := LoginRequest.mk "yh" None None None.

Definition logged_in (e : Env) : World := snd (login e yh_login initial_world).

(** 10.5 and 1.0 as binary floats. *)
Definition ten_and_a_half : spec_float := S754_finite false 21 (-1).
Definition one : spec_float := S754_finite false 1 0.
Definition minus_one : spec_float := S754_finite true 1 0.

(** A collaborator that never fails and answers [None] at once. *)
Definition quiet : Env := sample_env [].

(** A collaborator whose first [n] calls return and whose next call raises
    [msg] after one tick. *)
Definition failing_at (n : nat) (msg : string) : Env :=
  sample_env (repeat (Returns VNone 0) n ++ [Raises msg 1]).

Definition ht_login : LoginRequest.t :=
  LoginRequest.mk "ht" (Some "user") (Some "secret") None.

Definition bogus_login : LoginRequest.t :=
  LoginRequest.mk "bogus" None None None.

Definition sample_buy : BuyRequest.t :=
  BuyRequest.mk "sh600000" ten_and_a_half 100.

(** A broker that accepts the login, acknowledges an order as E1001 after
    two ticks and confirms a cancellation after one. *)
Definition broker : Env :=
  sample_env [Returns VNone 0; Returns VNone 0; Returns VNone 0;
              Returns (VStr "E1001") 2; Returns (VStr "撤单成功") 1].

Definition sample_order : OrderBody :=
  mkOrderBody (Some "sh600000") (Some ten_and_a_half) (Some 100%Z).

(** ** The life of the process *)

(** The world [lifespan] leaves when it reaches its [yield], and the world
    it leaves when the application stops. *)
Definition startup (e : Env) (w : World) : World :=
  snd (@lifespan_startup e Empty_set w).

Definition shutdown (e : Env) (w : World) : World :=
  snd (@lifespan_shutdown e Empty_set w).

(** The process once started, and after it has served some requests. *)
Definition boot (e : Env) : World := startup e initial_world.

Definition serving (e : Env) (rs : list Request) : World :=
  snd (run e rs (boot e)).

(** [trader_connected] is not set unless a trader object is stored. *)
Definition flag_has_handle (w : World) : bool :=
  implb (trader_connected w) (truthy (trader w)).



(** An environment like [sample_env] whose process environment holds the
    variables of an automatic login. *)
Definition configured (kind : string) (answers : list Outcome) : Env :=
  mkEnv (scripted answers) sample_str (fun n => "T+" ++ decimal n)
        (fun key =>
           if (key =? "BROKER_TYPE")%string then Some kind
           else if (key =? "BROKER_USERNAME")%string then Some "user"
           else if (key =? "BROKER_PASSWORD")%string then Some "secret"
           else None).

(** Minus infinity, which is what the JSON number -1e400 decodes to. *)
Definition minus_infinity : spec_float := S754_infinity true.

(** An environment like [quiet] in which [BROKER_EXE_PATH] is set. *)
Definition pathed : Env :=
  mkEnv (scripted []) sample_str (fun n => "T+" ++ decimal n)
        (fun key =>
           if (key =? "BROKER_EXE_PATH")%string then Some "D:/yh/xiadan.exe"
           else None).

(** * Properties *)

(** ** The service on concrete requests *)

(** Login, health, buy, cancel, logout, and a buy that comes too late. *)
Example round_trip :
  let '(replies, w) :=
    run broker
      [POST_login (mkLoginBody (Some "yh") None None None); GET_health;
       POST_buy sample_order; POST_cancel (mkCancelBody (Some "E1001"));
       GET_logout; POST_buy sample_order]
      initial_world in
  map status_of replies = [200; 200; 200; 200; 200; 503]%Z
  /\ nth 2 replies (ValidationError 0)
     = Json 200
         (mkResponse true "买入请求已提交"
            (VDict [("symbol", VStr "sh600000");
                    ("price", VFloat ten_and_a_half);
                    ("amount", VInt 100); ("order_id", VStr "E1001")])
            "T+2")
  /\ journal w
     = [Use "yh"; Prepare 0 None; Login 0 None;
        Buy 0 "sh600000" ten_and_a_half 100; CancelEntrust 0 "E1001"; Exit 0]
  /\ connected w = false.
Proof. vm_compute. repeat split. Qed.

(** A price of -1 stops at the schema. *)
Example negative_price :
  run quiet [POST_buy (mkOrderBody (Some "sh600000") (Some minus_one)
                         (Some 100%Z))]
      (logged_in quiet)
  = ([ValidationError 422], logged_in quiet).
Proof. vm_compute. reflexivity. Qed.

(** What [len] accepts and what it refuses. *)
Example sized_values :
  py_len (VTuple [VInt 1; VInt 2]) = inr 2%Z
  /\ py_len (VSet []) = inr 0%Z
  /\ py_len (VBytes "abc") = inr 3%Z
  /\ py_len (VObject "DataFrame" (Some (inr 5))) = inr 5%Z
  /\ py_len (VObject "Decimal" None)
     = inl "object of type 'Decimal' has no len()"
  /\ py_len (VFloat one) = inl "object of type 'float' has no len()".
Proof. repeat split. Qed.

(** A price of minus infinity or a NaN cannot be echoed by the report of
    the failed validation, and the client gets the bare 500; plus infinity
    is above zero, so with a quantity of zero only the quantity is echoed
    and the reply is the 422. *)
Example unencodable_reports :
  let order p a := POST_buy (mkOrderBody (Some "sh600000") (Some p) (Some a)) in
  map (fun r => fst (app quiet r initial_world))
      [order minus_infinity 100%Z; order S754_nan 0%Z;
       order (S754_infinity false) 0%Z;
       POST_sell (mkOrderBody None (Some S754_nan) (Some 1%Z))]
  = [ServerError 500; ServerError 500; ValidationError 422; ServerError 500].
Proof. vm_compute. reflexivity. Qed.

(** A collaborator that hands back [None] for the positions makes [len]
    raise, which the handler reports as any other failure; a balance of
    [None] goes out as an envelope without data. *)
Example none_payloads :
  map status_of (fst (run quiet [GET_portfolio; GET_balance]
                        (logged_in quiet)))
  = [500; 200]%Z.
Proof. vm_compute. reflexivity. Qed.

Create HintDb service discriminated.
#[local] Hint Unfold serve serve_validated bind ret raise try_except gets
  modify logger_info logger_warning logger_error create_response invoke on_trader len
  easytrader_use : service.

(** Split on every test a computation makes, once its monad is unfolded. *)
Ltac split_run :=
  repeat match goal with
    | |- context [match ?c ?e ?j ?x with Returns _ _ => _ | Raises _ _ => _ end] =>
        destruct (c e j x) eqn:?; cbn in *
    | |- context [match py_len ?v with inl _ => _ | inr _ => _ end] =>
        destruct (py_len v) eqn:?; cbn in *
    | |- context [match ?t with Some _ => _ | None => _ end] =>
        destruct t eqn:?; cbn in *
    | |- context [if ?b then _ else _] => destruct b eqn:?; cbn in *
    end.

Section Properties.

Variable env : Env.

(** C1.  Whenever the guard [trader and trader_connected] does not hold,
    each of buy, sell, cancel, portfolio, balance, orders and today_trades
    answers 503 with the detail the handler raises and leaves the world as
    it found it: the journal of collaborator calls, in particular, has not
    grown. *)
Theorem not_connected_is_503 (op : Operation) (w : World) :
  connected w = false ->
  serve (handler env op) w
  = (Failure HTTP_503_SERVICE_UNAVAILABLE "未登录券商", w)
  /\ journal (snd (serve (handler env op) w)) = journal w.
Proof.
  intros H.
  assert (G : negb (truthy (trader w)) || negb (trader_connected w) = true).
  { unfold connected in H. destruct (truthy (trader w)), (trader_connected w);
      cbn in *; congruence. }
  assert (E : serve (handler env op) w
              = (Failure HTTP_503_SERVICE_UNAVAILABLE "未登录券商", w)).
  { destruct op as [[s p a]|[s p a]|[o]| | | |]; cbn [handler];
      unfold buy, sell, cancel, get_portfolio, get_balance, get_orders,
        get_today_trades;
      autounfold with service; cbn; rewrite G; reflexivity. }
  rewrite E. split; reflexivity.
Qed.

(** C3.  With no trader object stored, [GET /logout] answers 200 with an
    envelope whose [success] is false and whose message says that nobody is
    logged in; the world, and so the journal of collaborator calls, is
    untouched. *)
Theorem logout_without_session (w : World) :
  trader w = None ->
  app env GET_logout w
  = (Json HTTP_200_OK
          (mkResponse false "未登录" VNone (isoformat env (clock w))), w).
Proof.
  intros H. cbn [app]. unfold logout. autounfold with service. cbn.
  rewrite H. reflexivity.
Qed.

(** C6.  When the session is connected and the collaborator raises on the
    call an operation makes, the reply is 500 and its detail is the
    handler's fixed prefix followed by [str(e)] unaltered; the same text is
    logged as an error, exactly that one call was made, and [trader],
    [trader_connected] and [broker_type] are what they were. *)
Theorem collaborator_failure_is_500
    (op : Operation) (w : World) (h : Handle) (msg : string) (dt : nat) :
  trader w = Some h ->
  trader_connected w = true ->
  collaborator env (journal w) (call_of op h) = Raises msg dt ->
  let detail := failure_prefix op ++ msg in
  let w' := snd (serve (handler env op) w) in
  fst (serve (handler env op) w)
  = Failure HTTP_500_INTERNAL_SERVER_ERROR detail
  /\ trader w' = trader w
  /\ trader_connected w' = trader_connected w
  /\ broker_type w' = broker_type w
  /\ journal w' = (journal w ++ [call_of op h])%list
  /\ records w' = (records w ++ [(ERROR, detail)])%list.
Proof.
  intros Ht Hc Hr.
  destruct w as [t b c j r k n]; cbn in Ht, Hc, Hr; subst t c.
  destruct op as [[s p a]|[s p a]|[o]| | | |]; cbn [handler call_of] in *;
    unfold buy, sell, cancel, get_portfolio, get_balance, get_orders,
      get_today_trades;
    autounfold with service; cbn; rewrite Hr; cbn;
    repeat split; reflexivity.
Qed.





(** ** Login, run symbolically *)

(** Everything [login] can do, decided by the collaborator's answers to
    [use], [prepare] and [login] in turn. *)
Lemma login_outcome (req : LoginRequest.t) (w : World) :
  let kind := LoginRequest.broker_type req in
  let h := created w in
  let failed m w' :=
    (inl (HTTPExc HTTP_500_INTERNAL_SERVER_ERROR ("登录失败: " ++ m)),
     emit ERROR ("登录失败: " ++ m) (set_trader_connected false w')) in
  login env req w =
  match collaborator env (journal w) (Use kind) with
  | Raises m dt => failed m (called (Use kind) dt w)
  | Returns _ dt0 =>
      let w1 := set_broker_type kind
                  (set_trader (Some h) (allocate (called (Use kind) dt0 w))) in
      let c1 := Prepare h (prepare_argument env req) in
      match collaborator env (journal w1) c1 with
      | Raises m dt => failed m (called c1 dt w1)
      | Returns _ dt1 =>
          let w2 := called c1 dt1 w1 in
          let c2 := Login h (login_arguments req) in
          match collaborator env (journal w2) c2 with
          | Raises m dt => failed m (called c2 dt w2)
          | Returns _ dt2 =>
              let w3 := emit INFO ("成功登录券商: " ++ kind)
                          (set_trader_connected true (called c2 dt2 w2)) in
              (inr (mkResponse true ("成功登录券商: " ++ kind)
                      (VDict [("broker_type", VStr kind)])
                      (isoformat env (clock w3))), w3)
          end
      end
  end.
Proof.
  destruct w as [t b c j r k n]. destruct req as [kind u pw exe].
  unfold login, prepare_client, prepare_argument, login_arguments.
  autounfold with service. cbn.
  destruct (collaborator env j (Use kind)) as [v0 dt0|m dt]; cbn;
    [|reflexivity].
  destruct (kind =? "yh")%string; cbn;
    destruct (nonempty (str_or exe (os_getenv env "BROKER_EXE_PATH" "")));
    cbn; split_run; reflexivity.
Qed.

Lemma login_success_inv
    (req : LoginRequest.t) (w w' : World) (r : ResponseModel) :
  login env req w = (inr r, w') ->
  let h := created w in
  trader w' = Some h
  /\ created w' = S h
  /\ trader_connected w' = true
  /\ broker_type w' = LoginRequest.broker_type req
  /\ journal w' = (journal w
                   ++ [Use (LoginRequest.broker_type req);
                       Prepare h (prepare_argument env req);
                       Login h (login_arguments req)])%list.
Proof.
  intros H. rewrite login_outcome in H. cbv zeta in H.
  revert H. split_run; intros H; inversion H; subst; clear H; cbn.
  rewrite <- !app_assoc. repeat split; reflexivity.
Qed.

Lemma login_failure_inv
    (req : LoginRequest.t) (w w' : World) (exc : HTTPException) :
  login env req w = (inl exc, w') ->
  trader_connected w' = false
  /\ (exists m, exc = HTTPExc HTTP_500_INTERNAL_SERVER_ERROR
                        ("登录失败: " ++ m))
  /\ match collaborator env (journal w) (Use (LoginRequest.broker_type req))
     with
     | Returns _ _ =>
         trader w' = Some (created w)
         /\ broker_type w' = LoginRequest.broker_type req
     | Raises _ _ =>
         trader w' = trader w /\ broker_type w' = broker_type w
     end.
Proof.
  intros H. rewrite login_outcome in H. cbv zeta in H.
  revert H. split_run; intros H; inversion H; subst; clear H; cbn;
    repeat split; eauto.
Qed.

(** C4.  Of two successful logins in a row, the first stores the trader
    object its own [use] call made and the second stores the object made by
    the second [use] call, a different one; afterwards that object is the
    one in [trader], the session is connected under the second request's
    broker kind, and the only collaborator calls of the second login are its
    [use], [prepare] and [login]: [exit] is not called on the first
    object. *)
Theorem relogin_replaces_handle
    (r1 r2 : LoginRequest.t) (w0 w1 w2 : World) (e1 e2 : ResponseModel) :
  login env r1 w0 = (inr e1, w1) ->
  login env r2 w1 = (inr e2, w2) ->
  let h1 := created w0 in
  let h2 := created w1 in
  trader w1 = Some h1
  /\ trader w2 = Some h2
  /\ h2 <> h1
  /\ connected w2 = true
  /\ broker_type w2 = LoginRequest.broker_type r2
  /\ journal w2 = (journal w1
                   ++ [Use (LoginRequest.broker_type r2);
                       Prepare h2 (prepare_argument env r2);
                       Login h2 (login_arguments r2)])%list.
Proof.
  intros L1 L2 h1 h2.
  destruct (login_success_inv _ _ _ _ L1) as (T1 & C1 & _).
  destruct (login_success_inv _ _ _ _ L2) as (T2 & _ & K2 & B2 & J2).
  subst h1 h2. unfold connected. rewrite T2, K2.
  repeat split; try assumption.
  rewrite C1. auto using Nat.neq_succ_diag_l.
Qed.

(** ** Logout *)

(** Everything [logout] can do when a trader object is stored. *)
Lemma logout_outcome (w : World) (h : Handle) :
  trader w = Some h ->
  logout env w =
  match collaborator env (journal w) (Exit h) with
  | Returns _ dt =>
      let w' := set_trader None
                  (set_trader_connected false (called (Exit h) dt w)) in
      (inr (mkResponse true "已退出登录" VNone (isoformat env (clock w'))), w')
  | Raises m dt =>
      (inl (HTTPExc HTTP_500_INTERNAL_SERVER_ERROR ("退出登录失败: " ++ m)),
       emit ERROR ("退出登录失败: " ++ m) (called (Exit h) dt w))
  end.
Proof.
  destruct w as [t b c j r k n]. cbn. intros ->.
  unfold logout. autounfold with service. cbn.
  split_run; reflexivity.
Qed.

(** C2, amended.  With a trader object stored, [logout] calls [exit] on it
    once.  If [exit] returns, the object is dropped and the connected flag
    cleared: the session is disconnected.  If [exit] raises, the failure is
    logged as an error and reported as a 500 whose detail ends with
    [str(e)], and both [trader] and [trader_connected] keep the values they
    had. *)
Theorem logout_follows_exit (w : World) (h : Handle) :
  trader w = Some h ->
  let w' := snd (logout env w) in
  journal w' = (journal w ++ [Exit h])%list
  /\ match collaborator env (journal w) (Exit h) with
     | Returns _ _ =>
         (exists r, fst (logout env w) = inr r /\ success r = true)
         /\ trader w' = None
         /\ trader_connected w' = false
         /\ connected w' = false
     | Raises m _ =>
         fst (logout env w)
         = inl (HTTPExc HTTP_500_INTERNAL_SERVER_ERROR ("退出登录失败: " ++ m))
         /\ records w'
            = (records w ++ [(ERROR, ("退出登录失败: " ++ m)%string)])%list
         /\ trader w' = trader w
         /\ trader_connected w' = trader_connected w
         /\ connected w' = connected w
     end.
Proof.
  intros H w'. subst w'. rewrite (logout_outcome w h H).
  destruct (collaborator env (journal w) (Exit h)) as [v dt|m dt]; cbn.
  - repeat split. eexists. split; reflexivity.
  - repeat split.
Qed.

(** C9, amended.  A login that fails once [use] has returned leaves the new
    trader object, on which [login] never succeeded, in [trader] with the
    connected flag cleared; the next logout then calls [exit] on that
    object and cannot answer with the not-logged-in envelope.  A login that
    fails because [use] itself raised leaves [trader] as it was. *)
Theorem failed_login_keeps_new_handle
    (req : LoginRequest.t) (w w1 : World) (exc : HTTPException) :
  login env req w = (inl exc, w1) ->
  match collaborator env (journal w) (Use (LoginRequest.broker_type req)) with
  | Returns _ _ =>
      let h := created w in
      trader w1 = Some h
      /\ trader_connected w1 = false
      /\ journal (snd (logout env w1)) = (journal w1 ++ [Exit h])%list
      /\ forall r, fst (logout env w1) = inr r -> success r = true
  | Raises _ _ => trader w1 = trader w
  end.
Proof.
  intros H. destruct (login_failure_inv _ _ _ _ H) as (C & _ & K).
  destruct (collaborator env (journal w) (Use (LoginRequest.broker_type req)))
    as [v dt|m dt]; [|tauto].
  destruct K as [T _]. cbv zeta. repeat split; try assumption.
  - rewrite (logout_outcome w1 _ T).
    destruct (collaborator env (journal w1) (Exit (created w))); reflexivity.
  - intros r. rewrite (logout_outcome w1 _ T).
    destruct (collaborator env (journal w1) (Exit (created w)));
      cbn; intros E; inversion E; reflexivity.
Qed.

(** C10, amended.  [login] stores the requested broker kind as soon as
    [use] has returned, before [prepare] and [login] are tried, and no
    failure path restores the old one.  After a login that failed past
    [use], health therefore reports the requested kind with
    [connected = false]; after one that failed in [use], it reports the
    kind stored before, again with [connected = false].  Health reads
    nothing else but the clock, and changes nothing. *)
Theorem failed_login_health
    (req : LoginRequest.t) (w w1 : World) (exc : HTTPException) :
  login env req w = (inl exc, w1) ->
  let reports kind :=
    app env GET_health w1
    = (Json HTTP_200_OK
         (mkResponse true "服务正常"
            (VDict [("connected", VBool false); ("broker_type", VStr kind)])
            (isoformat env (clock w1))), w1) in
  match collaborator env (journal w) (Use (LoginRequest.broker_type req)) with
  | Returns _ _ =>
      broker_type w1 = LoginRequest.broker_type req
      /\ reports (LoginRequest.broker_type req)
  | Raises _ _ =>
      broker_type w1 = broker_type w /\ reports (broker_type w)
  end.
Proof.
  intros H reports. destruct (login_failure_inv _ _ _ _ H) as (C & _ & K).
  assert (R : reports (broker_type w1)).
  { subst reports. cbn [app]. unfold health_check.
    autounfold with service. cbn. rewrite C. reflexivity. }
  destruct (collaborator env (journal w) (Use (LoginRequest.broker_type req)));
    destruct K as [_ B]; rewrite <- B; split; auto.
Qed.

(** ** Envelopes *)

(** The formatter itself copies its three arguments and reads the clock. *)
Lemma create_response_spec
    (E : Type) (s : bool) (m : string) (d : PyVal) (w : World) :
  @create_response env E s m d w
  = (inr (mkResponse s m d (isoformat env (clock w))), w).
Proof. reflexivity. Qed.

Ltac shape_of_reply :=
  autounfold with service; cbn; split_run;
  let E := fresh "E" in
  intros E; inversion E; subst; clear E; cbn;
  repeat split; intros; first [reflexivity | congruence].

(** A failed validation is not answered with an envelope. *)
Ltac rejected H :=
  unfold validation_reply in H;
  match type of H with
  | context [if ?b then _ else _] => destruct b
  end;
  discriminate H.

(** C5, amended.  Every envelope a route answers with comes with status 200
    and carries the reading of the clock at the moment it was made, which
    is the clock the request leaves behind.  An envelope with data has
    [success = true] and an envelope with [success = false] has no data;
    the two shapes of the specification are not the only ones, since
    [success = true] also comes without data. *)
Theorem envelope_shape
    (r : Request) (w w' : World) (s : Z) (e : ResponseModel) :
  app env r w = (Json s e, w') ->
  s = HTTP_200_OK
  /\ timestamp e = isoformat env (clock w')
  /\ (is_present (data e) = true -> success e = true)
  /\ (success e = false -> is_present (data e) = false).
Proof.
  intros H. destruct r as [|b| |b|b|b| | | |]; cbn [app] in H.
  - destruct w. unfold health_check in H. revert H. shape_of_reply.
  - unfold serve_validated in H.
    destruct (validate_LoginRequest b) as [req|]; [|rejected H].
    unfold serve in H. rewrite login_outcome in H. cbv zeta in H.
    revert H. shape_of_reply.
  - destruct w. unfold logout in H. revert H. shape_of_reply.
  - unfold serve_validated in H.
    destruct (validate_BuyRequest b) as [[sy p a]|]; [|rejected H].
    destruct w. unfold buy in H. revert H. shape_of_reply.
  - unfold serve_validated in H.
    destruct (validate_SellRequest b) as [[sy p a]|]; [|rejected H].
    destruct w. unfold sell in H. revert H. shape_of_reply.
  - unfold serve_validated in H.
    destruct (validate_CancelRequest b) as [[o]|]; [|rejected H].
    destruct w. unfold cancel in H. revert H. shape_of_reply.
  - destruct w. unfold get_portfolio in H. revert H. shape_of_reply.
  - destruct w. unfold get_balance in H. revert H. shape_of_reply.
  - destruct w. unfold get_orders in H. revert H. shape_of_reply.
  - destruct w. unfold get_today_trades in H. revert H. shape_of_reply.
Qed.

End Properties.

(** * The theorems at work *)

Lemma not_connected_is_503_witness :
  connected initial_world = false
  /\ serve (handler quiet (OpBuy sample_buy)) initial_world
     = (Failure 503 "未登录券商", initial_world)
  /\ journal (snd (serve (handler quiet (OpBuy sample_buy)) initial_world))
     = [].
Proof.
  split; [reflexivity|].
  apply (not_connected_is_503 quiet (OpBuy sample_buy) initial_world).
  reflexivity.
Defined.

Lemma logout_without_session_witness :
  trader initial_world = None
  /\ app quiet GET_logout initial_world
     = (Json 200 (mkResponse false "未登录" VNone "T+0"), initial_world).
Proof.
  split; [reflexivity|].
  apply (logout_without_session quiet initial_world). reflexivity.
Defined.

Lemma collaborator_failure_is_500_witness :
  let e := failing_at 3 "资金不足" in
  let w := logged_in e in
  let w' := snd (serve (handler e (OpBuy sample_buy)) w) in
  (trader w = Some 0
   /\ trader_connected w = true
   /\ collaborator e (journal w) (call_of (OpBuy sample_buy) 0)
      = Raises "资金不足" 1)
  /\ fst (serve (handler e (OpBuy sample_buy)) w)
     = Failure 500 "买入失败: 资金不足"
  /\ trader w' = trader w
  /\ trader_connected w' = trader_connected w
  /\ broker_type w' = broker_type w
  /\ journal w' = (journal w ++ [Buy 0 "sh600000" ten_and_a_half 100])%list
  /\ records w' = (records w ++ [(ERROR, "买入失败: 资金不足")])%list.
Proof.
  intros e w w'. split; [repeat split|].
  apply (collaborator_failure_is_500 e (OpBuy sample_buy) w 0 "资金不足" 1);
    reflexivity.
Defined.



Lemma relogin_replaces_handle_witness :
  let w1 := snd (login quiet yh_login initial_world) in
  let w2 := snd (login quiet ht_login w1) in
  let e1 := mkResponse true "成功登录券商: yh"
              (VDict [("broker_type", VStr "yh")]) "T+0" in
  let e2 := mkResponse true "成功登录券商: ht"
              (VDict [("broker_type", VStr "ht")]) "T+0" in
  (login quiet yh_login initial_world = (inr e1, w1)
   /\ login quiet ht_login w1 = (inr e2, w2))
  /\ trader w1 = Some 0
  /\ trader w2 = Some 1
  /\ 1 <> 0
  /\ connected w2 = true
  /\ broker_type w2 = "ht"
  /\ journal w2
     = (journal w1
        ++ [Use "ht"; Prepare 1 None;
            Login 1 (Some (Some "user", Some "secret"))])%list.
Proof.
  intros w1 w2 e1 e2. split; [split; reflexivity|].
  apply (relogin_replaces_handle quiet yh_login ht_login initial_world w1 w2
           e1 e2); reflexivity.
Defined.

Lemma logout_follows_exit_witness :
  let w := logged_in quiet in
  let w' := snd (logout quiet w) in
  trader w = Some 0
  /\ journal w' = (journal w ++ [Exit 0])%list
  /\ (exists r, fst (logout quiet w) = inr r /\ success r = true)
  /\ trader w' = None
  /\ trader_connected w' = false
  /\ connected w' = false.
Proof.
  intros w w'. split; [reflexivity|].
  apply (logout_follows_exit quiet w 0). reflexivity.
Defined.

(** C2 as worded fails: after a login, a logout on which [exit] raises is
    answered 500 and the session is still connected, trader object
    included; health goes on to report [connected = true]. *)
Lemma exit_failure_keeps_session :
  let e := failing_at 3 "窗口未找到" in
  let w := logged_in e in
  let w' := snd (app e GET_logout w) in
  trader w = Some 0
  /\ fst (app e GET_logout w) = Failure 500 "退出登录失败: 窗口未找到"
  /\ trader w' = Some 0
  /\ trader_connected w' = true
  /\ connected w' = true
  /\ fst (app e GET_health w')
     = Json 200
         (mkResponse true "服务正常"
            (VDict [("connected", VBool true); ("broker_type", VStr "yh")])
            "T+1").
Proof. repeat split. Qed.

Lemma envelope_shape_witness :
  let e := mkResponse false "未登录" VNone "T+0" in
  app quiet GET_logout initial_world = (Json 200 e, initial_world)
  /\ 200%Z = HTTP_200_OK
  /\ timestamp e = isoformat quiet (clock initial_world)
  /\ (is_present (data e) = true -> success e = true)
  /\ (success e = false -> is_present (data e) = false).
Proof.
  intros e. split; [reflexivity|].
  apply (envelope_shape quiet GET_logout initial_world initial_world 200 e).
  reflexivity.
Defined.

(** C5 as worded fails: the envelope of a successful logout has
    [success = true] and no data, which is neither of the two shapes. *)
Lemma logout_success_has_no_data :
  let e := mkResponse true "已退出登录" VNone "T+0" in
  fst (app quiet GET_logout (logged_in quiet)) = Json 200 e
  /\ success e = true
  /\ is_present (data e) = false
  /\ ~ (is_present (data e) = true /\ success e = true)
  /\ ~ (is_present (data e) = false /\ success e = false).
Proof.
  repeat split; cbn; intros [H1 H2]; discriminate.
Qed.



Lemma failed_login_keeps_new_handle_witness :
  let e := failing_at 2 "密码错误" in
  let w1 := snd (login e ht_login initial_world) in
  login e ht_login initial_world
  = (inl (HTTPExc 500 "登录失败: 密码错误"), w1)
  /\ trader w1 = Some 0
  /\ trader_connected w1 = false
  /\ journal (snd (logout e w1)) = (journal w1 ++ [Exit 0])%list
  /\ forall r, fst (logout e w1) = inr r -> success r = true.
Proof.
  intros e w1. split; [reflexivity|].
  apply (failed_login_keeps_new_handle e ht_login initial_world w1
           (HTTPExc 500 "登录失败: 密码错误")).
  reflexivity.
Defined.

(** C9 as worded fails: when [use] raises, as it does for a broker kind the
    library does not know, the login fails with no new trader object;
    [trader] is still [None], and the next logout takes the not-logged-in
    path without calling the collaborator. *)
Lemma failed_use_leaves_no_handle :
  let e := failing_at 0 "" in
  let w1 := snd (app e (POST_login (mkLoginBody (Some "bogus") None None None))
                   initial_world) in
  fst (app e (POST_login (mkLoginBody (Some "bogus") None None None))
         initial_world)
  = Failure 500 "登录失败: "
  /\ trader w1 = None
  /\ app e GET_logout w1
     = (Json 200 (mkResponse false "未登录" VNone "T+1"), w1)
  /\ journal w1 = [Use "bogus"].
Proof. repeat split. Qed.

Lemma failed_login_health_witness :
  let e := failing_at 1 "找不到客户端" in
  let w1 := snd (login e ht_login initial_world) in
  login e ht_login initial_world
  = (inl (HTTPExc 500 "登录失败: 找不到客户端"), w1)
  /\ broker_type w1 = "ht"
  /\ app e GET_health w1
     = (Json 200
          (mkResponse true "服务正常"
             (VDict [("connected", VBool false); ("broker_type", VStr "ht")])
             (isoformat e (clock w1))), w1).
Proof.
  intros e w1. split; [reflexivity|].
  apply (failed_login_health e ht_login initial_world w1
           (HTTPExc 500 "登录失败: 找不到客户端")).
  reflexivity.
Defined.

(** C10 as worded fails: when [use] raises, the broker kind is never
    assigned, and after the failed login health still reports the kind
    stored before, not the requested one. *)
Lemma failed_use_keeps_broker_kind :
  let e := failing_at 0 "" in
  let w1 := snd (login e bogus_login initial_world) in
  fst (login e bogus_login initial_world)
  = inl (HTTPExc 500 "登录失败: ")
  /\ broker_type w1 = "yh"
  /\ fst (app e GET_health w1)
     = Json 200
         (mkResponse true "服务正常"
            (VDict [("connected", VBool false); ("broker_type", VStr "yh")])
            "T+1").
Proof. repeat split. Qed.

(** * Further properties of the handlers *)

Ltac unfold_handlers :=
  unfold buy, sell, cancel, get_portfolio, get_balance, get_orders,
    get_today_trades, logout, health_check in *.

Section Handlers.

Variable env : Env.

(** Without the guard, an operation stops at its first line. *)
Lemma guard_stops (op : Operation) (w : World) :
  connected w = false ->
  serve (handler env op) w
  = (Failure HTTP_503_SERVICE_UNAVAILABLE "未登录券商", w).
Proof.
  destruct w as [t b c j r k n]. unfold connected. cbn. intros H.
  destruct op as [[s p a]|[s p a]|[o]| | | |]; cbn [handler];
    unfold_handlers; autounfold with service; cbn;
    destruct t, c; cbn in *; try discriminate; reflexivity.
Qed.

(** X1.  A trading or query operation never assigns a global: whatever the
    collaborator does, [trader], [trader_connected] and [broker_type] are
    left as found and no trader object is made.  It calls the collaborator
    at most once, with its own call on the stored object, and never
    retries. *)
Theorem operation_frame (op : Operation) (w : World) :
  let w' := snd (serve (handler env op) w) in
  trader w' = trader w
  /\ trader_connected w' = trader_connected w
  /\ broker_type w' = broker_type w
  /\ created w' = created w
  /\ (journal w' = journal w
      \/ exists h, trader w = Some h
                   /\ journal w' = (journal w ++ [call_of op h])%list).
Proof.
  destruct w as [t b c j r k n].
  destruct op as [[s p a]|[s p a]|[o]| | | |]; cbn [handler call_of];
    unfold_handlers; autounfold with service; cbn;
    destruct t as [h|], c; cbn; split_run;
    repeat (split; [reflexivity|]);
    first [left; reflexivity | right; exists h; split; reflexivity].
Qed.


(** A body is turned away exactly when its report has an error to show. *)
Lemma order_errors_nil (b : OrderBody) :
  order_errors b = [] <-> validate_BuyRequest b <> None.
Proof.
  destruct b as [[s|] [p|] [a|]]; unfold order_errors, validate_BuyRequest;
    cbn; try destruct (float_gt0 p); try destruct (int_gt0 a); cbn;
    split; intros H; first [discriminate H | congruence].
Qed.



(** X5.  Whatever the body of a [POST /buy] or [POST /sell] holds and
    whatever the state of the session, the request makes at most one
    collaborator call, and that call is an order on the stored trader
    object with the fields of the body, a price above zero and a quantity
    above zero: the collaborator is never handed a non-positive price or
    quantity. *)
Theorem orders_sent_are_positive (b : OrderBody) (w : World) :
  let sent_by r make :=
    journal (snd (app env r w)) = journal w
    \/ exists h s p a,
        journal (snd (app env r w)) = (journal w ++ [make h s p a])%list
        /\ trader w = Some h
        /\ b = mkOrderBody (Some s) (Some p) (Some a)
        /\ float_gt0 p = true
        /\ (0 < a)%Z in
  sent_by (POST_buy b) Buy /\ sent_by (POST_sell b) Sell.
Proof.
  destruct w as [t bt c j r k n], b as [[s|] [p|] [a|]];
    cbn [app]; unfold serve_validated, validate_BuyRequest,
      validate_SellRequest; cbn; try (split; left; reflexivity).
  destruct (float_gt0 p) eqn:P, (int_gt0 a) eqn:A; cbn;
    try (split; left; reflexivity).
  apply Z.ltb_lt in A.
  destruct t as [h|], c; cbn; try (split; left; reflexivity).
  split; autounfold with service; cbn; split_run;
    right; exists h, s, p, a; auto.
Qed.

(** ** Sessions *)

(** X6.  Once a login has succeeded the guard of every operation holds, and
    health reports [connected = true] with the broker kind of that login
    request. *)
Theorem login_then_health
    (req : LoginRequest.t) (w w' : World) (r : ResponseModel) :
  login env req w = (inr r, w') ->
  connected w' = true
  /\ app env GET_health w'
     = (Json HTTP_200_OK
          (mkResponse true "服务正常"
             (VDict [("connected", VBool true);
                     ("broker_type", VStr (LoginRequest.broker_type req))])
             (isoformat env (clock w'))), w').
Proof.
  intros H. destruct (login_success_inv env _ _ _ _ H) as (T & _ & C & B & _).
  unfold connected. rewrite T, C. split; [reflexivity|].
  cbn [app]. unfold health_check. autounfold with service. cbn.
  rewrite C, B. reflexivity.
Qed.

(** X7.  A login that fails, at whichever step, clears the connected flag
    and so takes the service down even when a session was up before it:
    every trading and query operation that follows is answered 503 without
    a collaborator call.  The attempt itself called nothing but [use],
    [prepare] and [login]: a trader object stored before it was not
    exited. *)
Theorem failed_login_disconnects
    (req : LoginRequest.t) (w w' : World) (exc : HTTPException) :
  login env req w = (inl exc, w') ->
  connected w' = false
  /\ (forall op,
         serve (handler env op) w'
         = (Failure HTTP_503_SERVICE_UNAVAILABLE "未登录券商", w'))
  /\ (forall h, ~ In (Exit h) (skipn (List.length (journal w)) (journal w'))).
Proof.
  intros H.
  assert (C : connected w' = false).
  { destruct (login_failure_inv env _ _ _ _ H) as (C & _).
    unfold connected. rewrite C. apply andb_false_r. }
  split; [exact C|]. split; [intros op; apply guard_stops; exact C|].
  intros h. rewrite login_outcome in H. cbv zeta in H. revert H.
  split_run; intros H; inversion H; subst; clear H; cbn;
    rewrite <- ?app_assoc, skipn_app, skipn_all, Nat.sub_diag; cbn;
    intuition discriminate.
Qed.

(** X8.  After a logout on which [exit] returned, nothing is left of the
    session: every trading and query operation is answered 503, and a
    second logout finds nobody logged in, answers 200 with
    [success = false] and does not call the collaborator again. *)
Theorem logout_then_unavailable
    (w : World) (h : Handle) (v : PyVal) (dt : nat) :
  trader w = Some h ->
  collaborator env (journal w) (Exit h) = Returns v dt ->
  let w' := snd (logout env w) in
  (forall op,
      serve (handler env op) w'
      = (Failure HTTP_503_SERVICE_UNAVAILABLE "未登录券商", w'))
  /\ app env GET_logout w'
     = (Json HTTP_200_OK
          (mkResponse false "未登录" VNone (isoformat env (clock w'))), w').
Proof.
  intros T H w'. subst w'. rewrite (logout_outcome env w h T), H. cbn [snd].
  split.
  - intros op. apply guard_stops. reflexivity.
  - reflexivity.
Qed.

(** X9.  For the broker kind "yh" the user name and the password of the
    request are never read: two requests that differ only in them are served
    alike, reply and world. *)
Theorem yh_ignores_credentials
    (u p u' p' x : option string) (w : World) :
  login env (LoginRequest.mk "yh" u p x) w
  = login env (LoginRequest.mk "yh" u' p' x) w.
Proof. rewrite !login_outcome. reflexivity. Qed.

(** X10.  Once [use] has returned, the next call of a login is [prepare]
    on the new trader object, and the client path it is given is decided
    in this order: the request's [exe_path] if that is a non-empty string;
    else the value of [BROKER_EXE_PATH] if that is set and not empty; else
    none, [prepare] being called without argument. *)
Theorem exe_path_resolution
    (req : LoginRequest.t) (w : World) (v : PyVal) (dt : nat) :
  collaborator env (journal w) (Use (LoginRequest.broker_type req))
  = Returns v dt ->
  let from_environment :=
    match environ env "BROKER_EXE_PATH" with
    | Some y => if nonempty y then Some y else None
    | None => None
    end in
  let path :=
    match LoginRequest.exe_path req with
    | Some x => if nonempty x then Some x else from_environment
    | None => from_environment
    end in
  exists rest,
    journal (snd (login env req w))
    = (journal w
       ++ Use (LoginRequest.broker_type req)
          :: Prepare (created w) path :: rest)%list.
Proof.
  intros U from_environment path.
  assert (P : prepare_argument env req = path).
  { subst path from_environment.
    unfold prepare_argument, str_or, os_getenv.
    destruct (LoginRequest.exe_path req) as [x|];
      [destruct (nonempty x) eqn:X; [rewrite X; reflexivity|]|];
      destruct (environ env "BROKER_EXE_PATH") as [y|]; try reflexivity;
      destruct (nonempty y) eqn:Y; rewrite ?Y; reflexivity. }
  rewrite login_outcome. cbv zeta. rewrite U, P.
  split_run; rewrite <- ?app_assoc; cbn; eexists; reflexivity.
Qed.

(** ** Start-up and shutdown *)

(** Everything the start-up can do, decided by the process environment and
    by the collaborator's answers. *)
Lemma startup_outcome (w : World) :
  let kind := os_getenv env "BROKER_TYPE" "yh" in
  let username := os_getenv env "BROKER_USERNAME" "" in
  let password := os_getenv env "BROKER_PASSWORD" "" in
  let h := created w in
  let w0 := emit INFO "EasyTrader服务启动中..." w in
  let failed m w' :=
    set_trader_connected false
      (emit WARNING ("自动登录失败: " ++ m ++ ", 请手动调用login接口") w') in
  startup env w =
  if nonempty username && nonempty password
  then
    match collaborator env (journal w0) (Use kind) with
    | Raises m dt => failed m (called (Use kind) dt w0)
    | Returns _ dt0 =>
        let w1 := set_trader (Some h) (allocate (called (Use kind) dt0 w0)) in
        let c1 := Prepare h (Some (os_getenv env "BROKER_EXE_PATH" "")) in
        match collaborator env (journal w1) c1 with
        | Raises m dt => failed m (called c1 dt w1)
        | Returns _ dt1 =>
            let w2 := called c1 dt1 w1 in
            let c2 := Login h (if (kind =? "yh")%string then None
                               else Some (Some username, Some password)) in
            match collaborator env (journal w2) c2 with
            | Raises m dt => failed m (called c2 dt w2)
            | Returns _ dt2 =>
                emit INFO ("成功登录券商: " ++ kind)
                  (set_trader_connected true (called c2 dt2 w2))
            end
        end
    end
  else emit INFO "未配置自动登录，请调用login接口" w0.
Proof.
  destruct w as [t b c j r k n].
  unfold startup, lifespan_startup. autounfold with service. cbn.
  destruct (nonempty (os_getenv env "BROKER_USERNAME" "")
            && nonempty (os_getenv env "BROKER_PASSWORD" "")); cbn;
    [|reflexivity].
  destruct (collaborator env j (Use (os_getenv env "BROKER_TYPE" "yh")));
    cbn; [|reflexivity].
  destruct (os_getenv env "BROKER_TYPE" "yh" =? "yh")%string; cbn;
    split_run; reflexivity.
Qed.

(** X11.  When the user name or the password is missing from the process
    environment, or empty, the start-up does not try to log in: it calls
    the collaborator not once and leaves [trader], [trader_connected] and
    [broker_type] alone; it only writes its two log records. *)
Theorem startup_without_credentials (w : World) :
  os_getenv env "BROKER_USERNAME" "" = ""
  \/ os_getenv env "BROKER_PASSWORD" "" = "" ->
  let w' := startup env w in
  journal w' = journal w
  /\ trader w' = trader w
  /\ trader_connected w' = trader_connected w
  /\ broker_type w' = broker_type w
  /\ records w'
     = (records w ++ [(INFO, "EasyTrader服务启动中...");
                      (INFO, "未配置自动登录，请调用login接口")])%list.
Proof.
  intros H w'. subst w'. rewrite startup_outcome. cbv zeta.
  assert (G : nonempty (os_getenv env "BROKER_USERNAME" "")
              && nonempty (os_getenv env "BROKER_PASSWORD" "") = false).
  { destruct H as [-> | ->]; cbn; [reflexivity | apply andb_false_r]. }
  rewrite G. cbn. rewrite <- app_assoc. repeat split.
Qed.

(** X12.  The automatic login never stores its broker kind.  The start-up
    leaves [broker_type] as it finds it, so right after start-up health
    reports the kind "yh" the module was imported with, whichever kind
    [BROKER_TYPE] made the automatic login use and whether or not that
    login went through. *)
Theorem startup_keeps_broker_type (w : World) :
  broker_type (startup env w) = broker_type w
  /\ fst (app env GET_health (boot env))
     = Json HTTP_200_OK
         (mkResponse true "服务正常"
            (VDict [("connected", VBool (trader_connected (boot env)));
                    ("broker_type", VStr "yh")])
            (isoformat env (clock (boot env)))).
Proof.
  assert (B : forall w0, broker_type (startup env w0) = broker_type w0).
  { intros w0. rewrite startup_outcome. cbv zeta. split_run; reflexivity. }
  split; [apply B|].
  cbn [app]. unfold health_check. autounfold with service. cbn.
  unfold boot. rewrite B. reflexivity.
Qed.

(** X13.  With a user name and a password in the environment the start-up
    tries to log in, and the collaborator's answers decide how it ends.
    It calls [use] with the kind from [BROKER_TYPE]; if that returns,
    [prepare] on the new trader object, always with the environment's
    client path, be it empty; if that returns, [login], with the
    credentials unless the kind is "yh".  It stops at the first call that
    raises: the connected flag is then cleared, the failure logged as a
    warning, and every operation answered 503 until somebody logs in.  If
    all three return, it ends connected. *)
Theorem startup_login_attempt (w : World) :
  nonempty (os_getenv env "BROKER_USERNAME" "") = true ->
  nonempty (os_getenv env "BROKER_PASSWORD" "") = true ->
  let kind := os_getenv env "BROKER_TYPE" "yh" in
  let h := created w in
  let w' := startup env w in
  let c0 := Use kind in
  let c1 := Prepare h (Some (os_getenv env "BROKER_EXE_PATH" "")) in
  let c2 := Login h (if (kind =? "yh")%string then None
                     else Some (Some (os_getenv env "BROKER_USERNAME" ""),
                                Some (os_getenv env "BROKER_PASSWORD" ""))) in
  let gave_up m calls :=
    journal w' = (journal w ++ calls)%list
    /\ trader_connected w' = false
    /\ records w'
       = (records w
          ++ [(INFO, "EasyTrader服务启动中...");
              (WARNING, ("自动登录失败: " ++ m
                         ++ ", 请手动调用login接口")%string)])%list
    /\ forall op,
        serve (handler env op) w'
        = (Failure HTTP_503_SERVICE_UNAVAILABLE "未登录券商", w') in
  match collaborator env (journal w) c0 with
  | Raises m _ => gave_up m [c0] /\ trader w' = trader w
  | Returns _ _ =>
      trader w' = Some h
      /\ match collaborator env (journal w ++ [c0])%list c1 with
         | Raises m _ => gave_up m [c0; c1]
         | Returns _ _ =>
             match collaborator env (journal w ++ [c0; c1])%list c2 with
             | Raises m _ => gave_up m [c0; c1; c2]
             | Returns _ _ =>
                 journal w' = (journal w ++ [c0; c1; c2])%list
                 /\ connected w' = true
             end
         end
  end.
Proof.
  intros U P kind h w' c0 c1 c2 gave_up.
  subst kind h w' c0 c1 c2 gave_up.
  assert (D : forall w0, trader_connected w0 = false ->
              forall op, serve (handler env op) w0
                = (Failure HTTP_503_SERVICE_UNAVAILABLE "未登录券商", w0)).
  { intros w0 C op. apply guard_stops. unfold connected. rewrite C.
    apply andb_false_r. }
  rewrite startup_outcome. cbv zeta. rewrite U, P. cbn [andb].
  destruct w as [t b c j r k n]. cbn.
  destruct (collaborator env j (Use (os_getenv env "BROKER_TYPE" "yh")))
    as [v0 dt0|m dt]; cbn.
  2:{ rewrite <- app_assoc. repeat split. apply D. reflexivity. }
  match goal with
  | |- context [collaborator env ?j1 ?c] =>
      destruct (collaborator env j1 c) as [v1 dt1|m dt]; cbn
  end.
  2:{ rewrite <- !app_assoc. repeat split. apply D. reflexivity. }
  rewrite <- !app_assoc. cbn [List.app].
  match goal with
  | |- context [collaborator env ?j2 ?c] =>
      destruct (collaborator env j2 c) as [v2 dt2|m dt]; cbn
  end.
  2:{ rewrite <- !app_assoc. repeat split. apply D. reflexivity. }
  rewrite <- !app_assoc. repeat split.
Qed.

(** X14.  At shutdown [exit] is called once on the stored trader object,
    whether or not the session counts as connected, and never when no
    object is stored.  If [exit] raises, the failure is logged as a warning
    and goes no further.  The globals are not reset: [trader] and
    [trader_connected] are as they were. *)
Theorem shutdown_exits_once (w : World) :
  let w' := shutdown env w in
  trader w' = trader w
  /\ trader_connected w' = trader_connected w
  /\ match trader w with
     | None => journal w' = journal w
     | Some h =>
         journal w' = (journal w ++ [Exit h])%list
         /\ forall m dt,
             collaborator env (journal w) (Exit h) = Raises m dt ->
             records w'
             = (records w
                ++ [(INFO, "EasyTrader服务关闭中...");
                    (WARNING, ("退出券商客户端失败: " ++ m)%string)])%list
     end.
Proof.
  destruct w as [t b c j r k n].
  unfold shutdown, lifespan_shutdown. autounfold with service. cbn.
  destruct t as [h|]; cbn; [|repeat split].
  destruct (collaborator env j (Exit h)) as [v dt|m dt]; cbn;
    repeat split; intros m' dt' E; inversion E; subst.
  rewrite <- app_assoc. reflexivity.
Qed.

(** ** What every reachable state satisfies *)

Lemma startup_keeps_flag (w : World) :
  flag_has_handle w = true -> flag_has_handle (startup env w) = true.
Proof.
  intros H. rewrite startup_outcome. cbv zeta.
  split_run; unfold flag_has_handle in *; cbn in *;
    first [exact H | reflexivity | apply implb_false_l].
Qed.

Lemma app_keeps_flag (r : Request) (w : World) :
  flag_has_handle w = true -> flag_has_handle (snd (app env r w)) = true.
Proof.
  intros H. destruct r as [|b| |b|b|b| | | |]; cbn [app];
    unfold serve_validated;
    [ | destruct (validate_LoginRequest b) as [req|]; [|exact H] |
      | destruct (validate_BuyRequest b) as [[s p a]|]; [|exact H]
      | destruct (validate_SellRequest b) as [[s p a]|]; [|exact H]
      | destruct (validate_CancelRequest b) as [[o]|]; [|exact H]
      | | | | ].
  2:{ unfold serve. rewrite login_outcome. cbv zeta.
      split_run; unfold flag_has_handle in *; cbn in *;
        first [exact H | reflexivity | apply implb_false_l]. }
  all: destruct w as [t b' c j rc k n]; unfold flag_has_handle in *;
    unfold_handlers; autounfold with service; cbn in *; split_run;
    first [exact H | reflexivity | discriminate].
Qed.

Lemma run_keeps_flag (rs : list Request) (w : World) :
  flag_has_handle w = true -> flag_has_handle (snd (run env rs w)) = true.
Proof.
  revert w. induction rs as [|r rs IH]; intros w H; cbn [run].
  - exact H.
  - pose proof (app_keeps_flag r w H) as H1.
    destruct (app env r w) as [a w1]. cbn [snd] in H1.
    specialize (IH w1 H1).
    destruct (run env rs w1) as [l w2]. exact IH.
Qed.

(** X15.  The connected flag is never set without a trader object being
    stored: a world where this holds is taken to another such world by the
    start-up and by every sequence of requests, valid or not, whatever the
    collaborator answers. *)
Theorem flag_never_outlives_handle (rs : list Request) (w : World) :
  flag_has_handle w = true ->
  flag_has_handle (startup env w) = true
  /\ flag_has_handle (snd (run env rs w)) = true.
Proof.
  intros H. split.
  - apply startup_keeps_flag. exact H.
  - apply run_keeps_flag. exact H.
Qed.

(** X16.  Health reports the bare flag [trader_connected] while the
    operations test [trader and trader_connected]; in a running service
    the two never disagree.  After start-up and any requests, health says
    [connected = true] exactly when the operations pass their guard. *)
Theorem health_agrees_with_guard (rs : list Request) :
  let w := serving env rs in
  fst (app env GET_health w)
  = Json HTTP_200_OK
      (mkResponse true "服务正常"
         (VDict [("connected", VBool (connected w));
                 ("broker_type", VStr (broker_type w))])
         (isoformat env (clock w))).
Proof.
  intros w.
  assert (F : flag_has_handle w = true).
  { subst w. unfold serving, boot. apply run_keeps_flag.
    apply startup_keeps_flag. reflexivity. }
  cbn [app]. unfold health_check. autounfold with service. cbn.
  unfold flag_has_handle in F. unfold connected.
  destruct (trader_connected w), (truthy (trader w));
    try discriminate F; reflexivity.
Qed.

End Handlers.

(** * The further properties at work *)



Lemma login_then_health_witness :
  let w' := logged_in quiet in
  let r := mkResponse true "成功登录券商: yh"
             (VDict [("broker_type", VStr "yh")]) "T+0" in
  login quiet yh_login initial_world = (inr r, w')
  /\ connected w' = true
  /\ app quiet GET_health w'
     = (Json 200
          (mkResponse true "服务正常"
             (VDict [("connected", VBool true); ("broker_type", VStr "yh")])
             "T+0"), w').
Proof.
  intros w' r. split; [reflexivity|].
  apply (login_then_health quiet yh_login initial_world w' r). reflexivity.
Defined.

Lemma failed_login_disconnects_witness :
  let e := failing_at 3 "" in
  let w := logged_in e in
  let w' := snd (login e bogus_login w) in
  (connected w = true
   /\ login e bogus_login w = (inl (HTTPExc 500 "登录失败: "), w'))
  /\ connected w' = false
  /\ (forall op, serve (handler e op) w' = (Failure 503 "未登录券商", w'))
  /\ (forall h, ~ In (Exit h) (skipn (List.length (journal w)) (journal w'))).
Proof.
  intros e w w'. split; [split; reflexivity|].
  apply (failed_login_disconnects e bogus_login w w'
           (HTTPExc 500 "登录失败: ")).
  reflexivity.
Defined.

Lemma logout_then_unavailable_witness :
  let w := logged_in quiet in
  let w' := snd (logout quiet w) in
  (trader w = Some 0
   /\ collaborator quiet (journal w) (Exit 0) = Returns VNone 0)
  /\ (forall op, serve (handler quiet op) w' = (Failure 503 "未登录券商", w'))
  /\ app quiet GET_logout w'
     = (Json 200 (mkResponse false "未登录" VNone (isoformat quiet (clock w'))),
        w').
Proof.
  intros w w'. split; [split; reflexivity|].
  apply (logout_then_unavailable quiet w 0 VNone 0); reflexivity.
Defined.

Lemma exe_path_resolution_witness :
  let req := LoginRequest.mk "yh" None None (Some "") in
  collaborator pathed (journal initial_world) (Use "yh") = Returns VNone 0
  /\ exists rest,
      journal (snd (login pathed req initial_world))
      = ([] ++ Use "yh" :: Prepare 0 (Some "D:/yh/xiadan.exe") :: rest)%list.
Proof.
  intros req. split; [reflexivity|].
  apply (exe_path_resolution pathed req initial_world VNone 0). reflexivity.
Defined.

Lemma startup_without_credentials_witness :
  let w' := startup quiet initial_world in
  (os_getenv quiet "BROKER_USERNAME" "" = ""
   \/ os_getenv quiet "BROKER_PASSWORD" "" = "")
  /\ journal w' = []
  /\ trader w' = None
  /\ trader_connected w' = false
  /\ broker_type w' = "yh"
  /\ records w'
     = [(INFO, "EasyTrader服务启动中...");
        (INFO, "未配置自动登录，请调用login接口")].
Proof.
  intros w'. split; [left; reflexivity|].
  apply (startup_without_credentials quiet initial_world).
  left. reflexivity.
Defined.

Lemma startup_login_attempt_witness :
  let e := configured "ht" [] in
  let w' := startup e initial_world in
  (nonempty (os_getenv e "BROKER_USERNAME" "") = true
   /\ nonempty (os_getenv e "BROKER_PASSWORD" "") = true)
  /\ trader w' = Some 0
  /\ journal w'
     = ([] ++ [Use "ht"; Prepare 0 (Some "");
               Login 0 (Some (Some "user", Some "secret"))])%list
  /\ connected w' = true.
Proof.
  intros e w'. split; [split; reflexivity|].
  apply (startup_login_attempt e initial_world); reflexivity.
Defined.

Lemma flag_never_outlives_handle_witness :
  let rs := [POST_login (mkLoginBody (Some "ht") None None None);
             GET_logout; POST_buy sample_order] in
  flag_has_handle initial_world = true
  /\ flag_has_handle (startup (failing_at 1 "") initial_world) = true
  /\ flag_has_handle (snd (run (failing_at 1 "") rs initial_world)) = true.
Proof.
  intros rs. split; [reflexivity|].
  apply (flag_never_outlives_handle (failing_at 1 "") rs initial_world).
  reflexivity.
Defined.
